(** * Log adapters of tsong: [alsa_log_stub] and [ffmpeg_log_stub]

    The two C shims of [src/alsalog.c] and [src/fflog.c] render a printf-style
    template into a 1024-byte automatic array with [vsnprintf] and hand the
    array, with the call-site metadata, to an external sink.

    The embedding keeps the C view of the data: a character array is a
    [list ascii], a [const char*] argument is the [string] it designates, an
    [int] is a [Z], a pointer is its address.  A call whose behaviour C leaves
    undefined has no result ([None]). *)

From Stdlib Require Import ZArith Ascii DecimalString.
From stdpp Require Import base option list gmap strings.

(** ** Characters, arrays and C strings *)

Definition NUL : ascii := "000"%char.

(** The characters a character array holds before its first terminator (all of
    them when there is none). *)
Fixpoint strz (s : list ascii) : string :=
  match s with
  | [] => EmptyString
  | c :: s' => if Ascii.eqb c NUL then EmptyString else String c (strz s')
  end.

(** Reading a character array as a C string, the way a [const char*] consumer
    does: the characters up to the first terminator.  An array with no
    terminator sends the reader past its end. *)
Fixpoint c_str (s : list ascii) : option string :=
  match s with
  | [] => None
  | c :: s' => if Ascii.eqb c NUL then Some EmptyString else String c <$> c_str s'
  end.

(** The characters of a C string value; a terminator ends it. *)
Fixpoint c_chars (s : string) : list ascii :=
  match s with
  | EmptyString => []
  | String c s' => if Ascii.eqb c NUL then [] else c :: c_chars s'
  end.

Definition sizeof (s : list ascii) : nat := length s.

(** ** Variadic arguments *)

(** One variadic argument, after the default argument promotions. *)
Inductive c_value :=
| VInt (i : Z)        (* int (and the promoted char, short) *)
| VStr (s : string)   (* char*: the string pointed to *)
| VPtr (p : Z).       (* int*: the address of an int object *)

Definition va_list := list c_value.

(** ** Program state *)

(** The calls the external sinks have received. *)
Inductive SinkCall :=
| alsa_call (file : string) (line : Z) (function : string) (errno : Z)
            (message : string)
| ffmpeg_call (handle : Z) (level : Z) (message : string).

Definition sink_message (c : SinkCall) : string :=
  match c with
  | alsa_call _ _ _ _ m => m
  | ffmpeg_call _ _ m => m
  end.

(** [heap]: the caller's int objects, by address.  [stack]: the bytes lying
    where the next automatic array will be placed (what an uninitialised array
    starts with).  [sink_log]: the sink calls made so far, oldest first. *)
Record World := mkWorld {
  heap : gmap Z Z;
  stack : list ascii;
  sink_log : list SinkCall
}.

(** [char buf[n];] without initialiser: [n] bytes of whatever the stack holds. *)
Definition auto_array (n : nat) (w : World) : list ascii :=
  resize n NUL (stack w).

(** ** The formatting primitive *)

(** Modelled from the spec: the printf family of the C library, which the
    adapters call and the repository does not contain.  [vformat format arg] is
    the unbounded rendering of the template: the characters it produces and the
    stores its [%n] directives request, as (address, value) in order.  It is
    [None] where the call is undefined (a directive without a matching
    argument). *)
Class Formatter :=
  vformat : string -> va_list -> option (list ascii * list (Z * Z)).

(** Performing the requested stores; a store through an address that holds no
    object is undefined. *)
Fixpoint apply_stores (sts : list (Z * Z)) (h : gmap Z Z) : option (gmap Z Z) :=
  match sts with
  | [] => Some h
  | (p, v) :: sts' =>
      match h !! p with
      | Some _ => apply_stores sts' (<[p:=v]> h)
      | None => None
      end
  end.

Definition INT_MAX : Z := 2 ^ 31 - 1.

(** What [vsnprintf] returns for a rendering of [len] characters: the count,
    or -1 when the count is more than an [int] can hold. *)
Definition vsnprintf_result (len : nat) : Z :=
  if (Z.of_nat len <=? INT_MAX)%Z then Z.of_nat len else (-1)%Z.

Section Adapters.
Context `{F : Formatter}.

(** Modelled from the spec: unbounded formatting ([vsprintf] into an array
    that is large enough): the rendered characters and the heap after the
    stores. *)
Definition vsprintf (format : string) (arg : va_list) (h : gmap Z Z)
  : option (list ascii * gmap Z Z) :=
  '(out, sts) ← vformat format arg;
  h' ← apply_stores sts h;
  Some (out, h').

(** Modelled from the spec: [vsnprintf(s, n, format, arg)], standard bounded
    string formatting.  Characters beyond the [n-1]st are discarded, a
    terminator follows the characters written, nothing is written when [n] is
    zero.  The result is the count an unbounded array would have received, or
    a negative value, the report of a formatting error, when that count does
    not fit an [int]; the array is written in either case (the formatter
    always produces some bounded string).  Writing past the end of [s] is
    undefined. *)
Definition vsnprintf (s : list ascii) (n : nat) (format : string)
    (arg : va_list) (h : gmap Z Z) : option (list ascii * Z * gmap Z Z) :=
  '(out, h') ← vsprintf format arg h;
  let written := match n with
                 | O => []
                 | S m => take m out ++ [NUL]
                 end in
  if decide (length written ≤ length s)
  then Some (written ++ drop (length written) s, vsnprintf_result (length out), h')
  else None.

(** ** The sinks *)

Definition record_call (c : SinkCall) (w : World) : World :=
  {| heap := heap w; stack := stack w; sink_log := sink_log w ++ [c] |}.

(** Modelled from the spec: the external sink of Variant A, declared [extern]
    only.  It reads its message argument as a C string and records the call. *)
Definition alsa_log_backend (file : string) (line : Z) (function : string)
    (errno : Z) (msg : list ascii) (w : World) : option World :=
  m ← c_str msg;
  Some (record_call (alsa_call file line function errno m) w).

(** Modelled from the spec: the external sink of Variant B, declared [extern]
    only. *)
Definition ffmpeg_log_backend (handle : Z) (level : Z) (msg : list ascii)
    (w : World) : option World :=
  m ← c_str msg;
  Some (record_call (ffmpeg_call handle level m) w).

(** ** The adapters *)

(** [(uintptr_t)ptr]: the address, as an unsigned integer wide enough for it. *)
Definition uintptr_t (ptr : Z) : Z := ptr.

Definition NULL : Z := 0.

(** [alsalog.c]: the trailing arguments, gathered by [va_start], are [arg]. *)
Definition alsa_log_stub (file : string) (line : Z) (function : string)
    (errno : Z) (format : string) (arg : va_list) (w : World) : option World :=
  let buf := auto_array 1024 w in
  '(buf, _, h) ← vsnprintf buf (sizeof buf) format arg (heap w);
  alsa_log_backend file line function errno buf
    {| heap := h; stack := buf; sink_log := sink_log w |}.

(** [fflog.c] *)
Definition ffmpeg_log_stub (ptr : Z) (level : Z) (format : string)
    (arg : va_list) (w : World) : option World :=
  let buf := auto_array 1024 w in
  '(buf, _, h) ← vsnprintf buf (sizeof buf) format arg (heap w);
  ffmpeg_log_backend (uintptr_t ptr) level buf
    {| heap := h; stack := buf; sink_log := sink_log w |}.

End Adapters.

(** ** A formatter for the common directives *)

(** The value of an [int] argument, as [%d] and as [%u] see it. *)
Definition as_int (i : Z) : Z := (i + 2 ^ 31) mod 2 ^ 32 - 2 ^ 31.
Definition as_unsigned (i : Z) : Z := i mod 2 ^ 32.

Definition decimal (z : Z) : list ascii :=
  String.list_ascii_of_string (NilZero.string_of_int (Z.to_int z)).

(** One conversion: the arguments left, the output and the stores so far. *)
Definition conversion (d : ascii) (args : va_list) (out : list ascii)
    (sts : list (Z * Z)) : option (va_list * list ascii * list (Z * Z)) :=
  if Ascii.eqb d "%" then Some (args, out ++ ["%"%char], sts)
  else match args with
  | VInt i :: args' =>
      if Ascii.eqb d "d" || Ascii.eqb d "i"
      then Some (args', out ++ decimal (as_int i), sts)
      else if Ascii.eqb d "u"
      then Some (args', out ++ decimal (as_unsigned i), sts)
      else if Ascii.eqb d "c"
      then Some (args', out ++ [ascii_of_N (Z.to_N (i mod 256))], sts)
      else None
  | VStr s :: args' =>
      if Ascii.eqb d "s" then Some (args', out ++ c_chars s, sts) else None
  | VPtr p :: args' =>
      if Ascii.eqb d "n"
      then Some (args', out, sts ++ [(p, Z.of_nat (length out))])
      else None
  | [] => None
  end.

(** Modelled from the spec: the rendering of a template with the conversions
    [%d %i %u %c %s %n %%] (no flags, width or precision), left to right.
    Surplus arguments are ignored; a conversion with no argument, or with one
    of another type, is undefined. *)
Fixpoint render (format : string) (args : va_list) (out : list ascii)
    (sts : list (Z * Z)) : option (list ascii * list (Z * Z)) :=
  match format with
  | EmptyString => Some (out, sts)
  | String c rest =>
      if Ascii.eqb c NUL then Some (out, sts)
      else if Ascii.eqb c "%" then
        match rest with
        | EmptyString => None
        | String d rest' =>
            match conversion d args out sts with
            | Some (args', out', sts') => render rest' args' out' sts'
            | None => None
            end
        end
      else render rest args (out ++ [c]) sts
  end.

#[export] Instance c_printf : Formatter :=
  fun format arg => render format arg [] [].

(** ** Sample inputs *)

(** A state with an int object at address 8, a stack full of stale non-zero
    bytes and one earlier sink call. *)
Definition sample_world : World :=
  {| heap := {[ 8%Z := 77%Z ]};
     stack := replicate 1500 "#"%char;
     sink_log := [ffmpeg_call 4096 32 "earlier"] |}.

(** A 2000-character template without directives. *)
Definition long_literal : string :=
  String.string_of_list_ascii (replicate 2000 "a"%char).

(** A string argument of 2^31 characters: the count of its rendering does not
    fit an [int]. *)
Definition overlong : string :=
  String.string_of_list_ascii (replicate (Z.to_nat (2 ^ 31)) "a"%char).

(** * Properties *)

Example render_items :
  vformat "%d items" [VInt 5] = Some (String.list_ascii_of_string "5 items", []).
Proof. reflexivity. Qed.

Example render_mixed :
  vformat "%s=%d%% %c%n" [VStr "vol"; VInt (-3); VInt 33; VPtr 8]
  = Some (String.list_ascii_of_string "vol=-3% !", [(8%Z, 9%Z)]).
Proof. reflexivity. Qed.

(** The bounded write on small arrays: a cut rendering, one that fits and
    leaves stale bytes after its terminator, size zero, and a size larger than
    the array, which lets the write run past its end. *)
Example vsnprintf_cut :
  vsnprintf (replicate 4 "#"%char) 4 "%d items" [VInt 5] ∅
  = Some (["5"; " "; "i"; NUL]%char, 7%Z, ∅).
Proof. reflexivity. Qed.

Example vsnprintf_fits :
  vsnprintf (replicate 6 "#"%char) 6 "%u%%" [VInt 40] ∅
  = Some (["4"; "0"; "%"; NUL; "#"; "#"]%char, 3%Z, ∅).
Proof. reflexivity. Qed.

Example vsnprintf_size_zero :
  vsnprintf (replicate 4 "#"%char) 0 "%d items" [VInt 5] ∅
  = Some (replicate 4 "#"%char, 7%Z, ∅).
Proof. reflexivity. Qed.

Example vsnprintf_overrun :
  vsnprintf (replicate 4 "#"%char) 8 "%d items" [VInt 5] ∅ = None.
Proof. reflexivity. Qed.

(** ** C strings *)

Lemma c_str_terminated (l k : list ascii) :
  c_str (l ++ NUL :: k) = Some (strz l).
Proof.
  induction l as [|c l IH]; [done|].
  cbn [app c_str strz]. destruct (Ascii.eqb c NUL); [done|].
  by rewrite IH.
Qed.

Lemma strz_length (l : list ascii) : String.length (strz l) ≤ length l.
Proof.
  induction l as [|c l IH]; [done|].
  cbn [strz]. destruct (Ascii.eqb c NUL); cbn [String.length length]; lia.
Qed.

Lemma strz_no_NUL (l : list ascii) :
  NUL ∉ l → strz l = String.string_of_list_ascii l.
Proof.
  induction l as [|c l IH]; [done|].
  intros Hnot. cbn [strz String.string_of_list_ascii].
  destruct (Ascii.eqb_spec c NUL) as [->|_].
  - exfalso. apply Hnot. left.
  - f_equal. apply IH. intros Hin. apply Hnot. by right.
Qed.

(** ** Stores *)

Lemma apply_stores_dom (sts : list (Z * Z)) (h h' : gmap Z Z) :
  apply_stores sts h = Some h' → dom h' = dom h.
Proof.
  revert h. induction sts as [|[p v] sts IH]; intros h; cbn [apply_stores].
  - by intros [= <-].
  - destruct (h !! p) as [x|] eqn:Hp; [|done].
    intros H. rewrite (IH _ H), dom_insert_L.
    apply subseteq_union_1_L, singleton_subseteq_l. by apply elem_of_dom_2 in Hp.
Qed.

Lemma apply_stores_defined (sts : list (Z * Z)) (h : gmap Z Z) :
  (∀ p v, (p, v) ∈ sts → p ∈ dom h) → is_Some (apply_stores sts h).
Proof.
  revert h. induction sts as [|[p v] sts IH]; intros h Hin; cbn [apply_stores].
  - by eexists.
  - destruct (h !! p) as [x|] eqn:Hp.
    + apply IH. intros q u Hq. rewrite dom_insert_L.
      apply elem_of_union_r. apply (Hin q u). by right.
    + exfalso. apply (not_elem_of_dom_2 _ _ Hp), (Hin p v). left.
Qed.

Lemma apply_stores_targets (sts : list (Z * Z)) (h h' : gmap Z Z) :
  apply_stores sts h = Some h' → ∀ p v, (p, v) ∈ sts → p ∈ dom h.
Proof.
  revert h. induction sts as [|[p v] sts IH]; intros h; cbn [apply_stores].
  - intros _ q u Hq. by apply elem_of_nil in Hq.
  - destruct (h !! p) as [x|] eqn:Hp; [|done].
    intros H q u Hq. apply elem_of_cons in Hq as [[= -> ->]|Hq].
    + by apply elem_of_dom_2 in Hp.
    + specialize (IH _ H q u Hq). rewrite dom_insert_L in IH.
      apply elem_of_dom_2 in Hp.
      by apply elem_of_union in IH as [->%elem_of_singleton|].
Qed.


(** ** The bounded write and the adapters, for any formatter *)

Section Generic.
Context `{F : Formatter}.

Lemma vsprintf_output (format : string) (arg : va_list) (h1 h2 h1' h2' : gmap Z Z)
    (out1 out2 : list ascii) :
  vsprintf format arg h1 = Some (out1, h1') →
  vsprintf format arg h2 = Some (out2, h2') →
  out1 = out2.
Proof.
  unfold vsprintf. destruct (vformat format arg) as [[out sts]|]; [|done].
  cbn [mbind option_bind].
  destruct (apply_stores sts h1), (apply_stores sts h2); try done.
  by intros [= <- _] [= <- _].
Qed.

Lemma vsprintf_again (format : string) (arg : va_list) (h h' : gmap Z Z)
    (out : list ascii) :
  vsprintf format arg h = Some (out, h') →
  ∃ h'', vsprintf format arg h' = Some (out, h'').
Proof.
  unfold vsprintf. destruct (vformat format arg) as [[o sts]|]; [|done].
  cbn [mbind option_bind].
  destruct (apply_stores sts h) as [k|] eqn:Hs; [|done].
  intros [= -> ->].
  destruct (apply_stores_defined sts h') as [h'' ->]; [|by eexists].
  rewrite (apply_stores_dom _ _ _ Hs). by apply apply_stores_targets with (h' := h').
Qed.

Lemma vsprintf_dom (format : string) (arg : va_list) (h h' : gmap Z Z)
    (out : list ascii) :
  vsprintf format arg h = Some (out, h') → dom h' = dom h.
Proof.
  unfold vsprintf. destruct (vformat format arg) as [[o sts]|]; [|done].
  cbn [mbind option_bind].
  destruct (apply_stores sts h) as [k|] eqn:Hs; [|done].
  intros [= _ <-]. by apply apply_stores_dom in Hs.
Qed.

(** The array [vsnprintf] leaves behind: the characters kept, the terminator,
    and the bytes of [s] that were not reached. *)
Lemma vsnprintf_bounded (s : list ascii) (m : nat) (format : string)
    (arg : va_list) (h h' : gmap Z Z) (out : list ascii) :
  vsprintf format arg h = Some (out, h') →
  m < length s →
  vsnprintf s (S m) format arg h
  = Some (take m out ++ NUL :: drop (S (length (take m out))) s,
          vsnprintf_result (length out), h').
Proof.
  intros Hf Hm. unfold vsnprintf. rewrite Hf. cbn [mbind option_bind].
  rewrite length_app, length_take. cbn [length].
  case_decide; [|lia].
  rewrite <- app_assoc. cbn [app].
  by replace (min m (length out) + 1) with (S (min m (length out))) by lia.
Qed.

Lemma vsnprintf_undefined (s : list ascii) (n : nat) (format : string)
    (arg : va_list) (h : gmap Z Z) :
  vsprintf format arg h = None → vsnprintf s n format arg h = None.
Proof. intros Hf. unfold vsnprintf. by rewrite Hf. Qed.

Lemma auto_array_length (n : nat) (w : World) : length (auto_array n w) = n.
Proof. apply length_resize. Qed.

(** What either adapter leaves in its array when the unbounded rendering is
    [out]. *)
Lemma rendered_length (out : list ascii) (w : World) :
  length (take 1023 out ++ NUL :: drop (S (length (take 1023 out))) (auto_array 1024 w))
  = 1024.
Proof.
  rewrite length_app. cbn [length]. rewrite length_drop, auto_array_length, length_take.
  lia.
Qed.

Lemma alsa_log_stub_run (file : string) (line : Z) (function : string)
    (errno : Z) (format : string) (arg : va_list) (w : World)
    (out : list ascii) (h' : gmap Z Z) :
  vsprintf format arg (heap w) = Some (out, h') →
  alsa_log_stub file line function errno format arg w
  = Some {| heap := h';
            stack := take 1023 out ++ NUL
                     :: drop (S (length (take 1023 out))) (auto_array 1024 w);
            sink_log := sink_log w
                        ++ [alsa_call file line function errno (strz (take 1023 out))] |}.
Proof.
  intros Hf. unfold alsa_log_stub, sizeof. rewrite auto_array_length.
  rewrite (vsnprintf_bounded _ 1023 _ _ _ _ _ Hf) by (rewrite auto_array_length; lia).
  cbn [mbind option_bind]. unfold alsa_log_backend.
  by rewrite c_str_terminated.
Qed.

Lemma ffmpeg_log_stub_run (ptr : Z) (level : Z) (format : string)
    (arg : va_list) (w : World) (out : list ascii) (h' : gmap Z Z) :
  vsprintf format arg (heap w) = Some (out, h') →
  ffmpeg_log_stub ptr level format arg w
  = Some {| heap := h';
            stack := take 1023 out ++ NUL
                     :: drop (S (length (take 1023 out))) (auto_array 1024 w);
            sink_log := sink_log w
                        ++ [ffmpeg_call ptr level (strz (take 1023 out))] |}.
Proof.
  intros Hf. unfold ffmpeg_log_stub, sizeof. rewrite auto_array_length.
  rewrite (vsnprintf_bounded _ 1023 _ _ _ _ _ Hf) by (rewrite auto_array_length; lia).
  cbn [mbind option_bind]. unfold ffmpeg_log_backend.
  by rewrite c_str_terminated.
Qed.

Lemma alsa_log_stub_undefined (file : string) (line : Z) (function : string)
    (errno : Z) (format : string) (arg : va_list) (w : World) :
  vsprintf format arg (heap w) = None →
  alsa_log_stub file line function errno format arg w = None.
Proof.
  intros Hf. unfold alsa_log_stub. by rewrite (vsnprintf_undefined _ _ _ _ _ Hf).
Qed.

Lemma ffmpeg_log_stub_undefined (ptr : Z) (level : Z) (format : string)
    (arg : va_list) (w : World) :
  vsprintf format arg (heap w) = None →
  ffmpeg_log_stub ptr level format arg w = None.
Proof.
  intros Hf. unfold ffmpeg_log_stub. by rewrite (vsnprintf_undefined _ _ _ _ _ Hf).
Qed.

End Generic.

(** ** The formatter for the common directives *)

(** A template without [%] renders as itself. *)
Lemma render_literal (s : string) (args : va_list) (out : list ascii)
    (sts : list (Z * Z)) :
  "%"%char ∉ String.list_ascii_of_string s →
  NUL ∉ String.list_ascii_of_string s →
  render s args out sts = Some (out ++ String.list_ascii_of_string s, sts).
Proof.
  revert out. induction s as [|c s IH]; intros out Hpc Hnul.
  - cbn [render String.list_ascii_of_string]. by rewrite app_nil_r.
  - cbn [render String.list_ascii_of_string] in *.
    apply not_elem_of_cons in Hpc as [Hc Hpc].
    apply not_elem_of_cons in Hnul as [Hn Hnul].
    destruct (Ascii.eqb_spec c NUL) as [->|_]; [done|].
    destruct (Ascii.eqb_spec c "%") as [->|_]; [done|].
    rewrite IH by done. by rewrite <- app_assoc.
Qed.




(** * The claims *)

Section Claims.
Context `{F : Formatter}.

(** C1. When the unbounded rendering [out] of the template has at most 1023
    bytes, either adapter leaves exactly [out] and its terminator at the start
    of its array and hands that array to its sink: the message the sink reads
    is [out] read as a C string, which is [out] itself, whole, whenever [out]
    holds no NUL character.  Nothing is cut. *)
Theorem C1_short_output_rendered_whole (file : string) (line : Z)
    (function : string) (errno ptr level : Z) (format : string) (arg : va_list)
    (w : World) (out : list ascii) (h' : gmap Z Z) :
  vsprintf format arg (heap w) = Some (out, h') →
  length out ≤ 1023 →
  alsa_log_stub file line function errno format arg w
  = Some {| heap := h';
            stack := out ++ NUL :: drop (S (length out)) (auto_array 1024 w);
            sink_log := sink_log w
                        ++ [alsa_call file line function errno (strz out)] |}
  ∧ ffmpeg_log_stub ptr level format arg w
    = Some {| heap := h';
              stack := out ++ NUL :: drop (S (length out)) (auto_array 1024 w);
              sink_log := sink_log w
                          ++ [ffmpeg_call (uintptr_t ptr) level (strz out)] |}
  ∧ (NUL ∉ out → strz out = String.string_of_list_ascii out).
Proof.
  intros Hf Hlen.
  rewrite (alsa_log_stub_run _ _ _ _ _ _ _ _ _ Hf),
    (ffmpeg_log_stub_run _ _ _ _ _ _ _ Hf).
  rewrite (take_ge out 1023) by lia.
  split; [done|]. split; [done|]. apply strz_no_NUL.
Qed.

(** C3. Whatever the length of the unbounded rendering [out], the array either
    adapter hands to its sink has its 1024 bytes and no more, starts with the
    first [min (length out) 1023] characters of [out] (as many [char]s as fit
    beside the terminator) and has a NUL right after them; the message read from it is
    determined by [out] alone and, terminator included, fits in 1024 bytes. *)
Theorem C3_rendered_message_bounded_and_terminated (file : string) (line : Z)
    (function : string) (errno ptr level : Z) (format : string) (arg : va_list)
    (w : World) (out : list ascii) (h' : gmap Z Z) :
  vsprintf format arg (heap w) = Some (out, h') →
  ∃ buf : list ascii,
    alsa_log_stub file line function errno format arg w
    = Some {| heap := h'; stack := buf;
              sink_log := sink_log w
                ++ [alsa_call file line function errno (strz (take 1023 out))] |}
    ∧ ffmpeg_log_stub ptr level format arg w
      = Some {| heap := h'; stack := buf;
                sink_log := sink_log w
                  ++ [ffmpeg_call (uintptr_t ptr) level (strz (take 1023 out))] |}
    ∧ length buf = 1024
    ∧ take (length out `min` 1023) buf = take 1023 out
    ∧ buf !! (length out `min` 1023) = Some NUL
    ∧ c_str buf = Some (strz (take 1023 out))
    ∧ String.length (strz (take 1023 out)) + 1 ≤ 1024.
Proof.
  intros Hf.
  exists (take 1023 out ++ NUL :: drop (S (length (take 1023 out))) (auto_array 1024 w)).
  assert (Hk : length (take 1023 out) = length out `min` 1023)
    by (rewrite length_take; lia).
  split; [by apply alsa_log_stub_run|].
  split; [by apply ffmpeg_log_stub_run|].
  split; [apply rendered_length|].
  split; [by rewrite <- Hk, take_app_length|].
  split; [by rewrite <- Hk, list_lookup_middle|].
  split; [apply c_str_terminated|].
  pose proof (strz_length (take 1023 out)). lia.
Qed.

(** C4. On every call for which formatting is defined, the adapter makes one
    sink call, no more and no less, and that call carries the metadata it was
    given: file, line, function and status code for Variant A, handle and level
    for Variant B. *)
Theorem C4_sink_called_once_with_metadata (file : string) (line : Z)
    (function : string) (errno ptr level : Z) (format : string) (arg : va_list)
    (w : World) (out : list ascii) (h' : gmap Z Z) :
  vsprintf format arg (heap w) = Some (out, h') →
  (∃ (wa : World) (message : string),
     alsa_log_stub file line function errno format arg w = Some wa
     ∧ sink_log wa = sink_log w ++ [alsa_call file line function errno message])
  ∧ (∃ (wb : World) (message : string),
     ffmpeg_log_stub ptr level format arg w = Some wb
     ∧ sink_log wb = sink_log w ++ [ffmpeg_call ptr level message]).
Proof.
  intros Hf. split.
  - eexists _, _. split; [by apply alsa_log_stub_run|done].
  - eexists _, _. split; [by apply ffmpeg_log_stub_run|done].
Qed.

(** C5. Variant B treats the handle as a number: the address is the handle the
    sink receives, whatever it is and whether or not any object lives there;
    the array, the message and the heap after the call are those of any other
    handle, NULL arrives as the integer 0, and the call neither creates nor
    releases an object at that address. *)
Theorem C5_handle_forwarded_as_number (ptr level : Z) (format : string)
    (arg : va_list) (w : World) (out : list ascii) (h' : gmap Z Z) :
  vsprintf format arg (heap w) = Some (out, h') →
  (is_Some (h' !! ptr) ↔ is_Some (heap w !! ptr))
  ∧ ∃ (buf : list ascii) (message : string),
      ffmpeg_log_stub ptr level format arg w
      = Some {| heap := h'; stack := buf;
                sink_log := sink_log w ++ [ffmpeg_call ptr level message] |}
      ∧ ffmpeg_log_stub NULL level format arg w
        = Some {| heap := h'; stack := buf;
                  sink_log := sink_log w ++ [ffmpeg_call 0 level message] |}.
Proof.
  intros Hf. split.
  - by rewrite <- !elem_of_dom, (vsprintf_dom _ _ _ _ _ Hf).
  - eexists _, _. split; by rewrite (ffmpeg_log_stub_run _ _ _ _ _ _ _ Hf).
Qed.

Lemma alsa_log_stub_defined (file : string) (line : Z) (function : string)
    (errno : Z) (format : string) (arg : va_list) (w w' : World) :
  alsa_log_stub file line function errno format arg w = Some w' →
  ∃ out h', vsprintf format arg (heap w) = Some (out, h').
Proof.
  destruct (vsprintf format arg (heap w)) as [[out h']|] eqn:Hf; [by eauto|].
  by rewrite (alsa_log_stub_undefined _ _ _ _ _ _ _ Hf).
Qed.

Lemma ffmpeg_log_stub_defined (ptr level : Z) (format : string)
    (arg : va_list) (w w' : World) :
  ffmpeg_log_stub ptr level format arg w = Some w' →
  ∃ out h', vsprintf format arg (heap w) = Some (out, h').
Proof.
  destruct (vsprintf format arg (heap w)) as [[out h']|] eqn:Hf; [by eauto|].
  by rewrite (ffmpeg_log_stub_undefined _ _ _ _ _ Hf).
Qed.

(** C6. The adapters add no failure of their own and report none.  A call
    returns exactly when the formatting it asks for is defined.  It then drops
    what [vsnprintf] returned, be it the count of a rendering that fitted, a
    count of 1024 or more (the rendering was cut) or the negative value of a
    formatting error (the count does not fit an [int]): in each case the
    adapter hands the array to its sink and ends in the plain next state, the
    sink having received the one message the first 1023 bytes of the
    rendering make, of at most 1023 characters.  So two renderings that agree
    on their first 1023 bytes give the same sink call, whatever [vsnprintf]
    reported for either.  The result carries no status: neither the count nor
    anything from the sink comes back. *)
Theorem C6_no_failure_reported (file : string) (line : Z) (function : string)
    (errno ptr level : Z) (format : string) (arg : va_list) (w : World) :
  (is_Some (alsa_log_stub file line function errno format arg w)
   ↔ is_Some (vsprintf format arg (heap w)))
  ∧ (is_Some (ffmpeg_log_stub ptr level format arg w)
     ↔ is_Some (vsprintf format arg (heap w)))
  ∧ (∀ (out : list ascii) (h' : gmap Z Z),
      vsprintf format arg (heap w) = Some (out, h') →
      ∃ (buf : list ascii) (count : Z),
        vsnprintf (auto_array 1024 w) (sizeof (auto_array 1024 w)) format arg
          (heap w) = Some (buf, count, h')
        ∧ ((Z.of_nat (length out) ≤ INT_MAX)%Z → count = Z.of_nat (length out))
        ∧ ((INT_MAX < Z.of_nat (length out))%Z → count = (-1)%Z)
        ∧ c_str buf = Some (strz (take 1023 out))
        ∧ String.length (strz (take 1023 out)) ≤ 1023
        ∧ alsa_log_stub file line function errno format arg w
          = Some {| heap := h'; stack := buf;
                    sink_log := sink_log w
                      ++ [alsa_call file line function errno
                            (strz (take 1023 out))] |}
        ∧ ffmpeg_log_stub ptr level format arg w
          = Some {| heap := h'; stack := buf;
                    sink_log := sink_log w
                      ++ [ffmpeg_call (uintptr_t ptr) level
                            (strz (take 1023 out))] |})
  ∧ (∀ (format2 : string) (arg2 : va_list) (w2 : World)
       (out out2 : list ascii) (h1 h2 : gmap Z Z),
      vsprintf format arg (heap w) = Some (out, h1) →
      vsprintf format2 arg2 (heap w2) = Some (out2, h2) →
      take 1023 out = take 1023 out2 →
      ∃ message : string,
        sink_log <$> alsa_log_stub file line function errno format arg w
        = Some (sink_log w ++ [alsa_call file line function errno message])
        ∧ sink_log <$> alsa_log_stub file line function errno format2 arg2 w2
          = Some (sink_log w2 ++ [alsa_call file line function errno message])
        ∧ sink_log <$> ffmpeg_log_stub ptr level format arg w
          = Some (sink_log w ++ [ffmpeg_call (uintptr_t ptr) level message])
        ∧ sink_log <$> ffmpeg_log_stub ptr level format2 arg2 w2
          = Some (sink_log w2 ++ [ffmpeg_call (uintptr_t ptr) level message])).
Proof.
  split; [|split; [|split]].
  - split.
    + intros [w' Hw]. apply alsa_log_stub_defined in Hw as (out & h' & ->). by eexists.
    + intros [[out h'] Hf]. rewrite (alsa_log_stub_run _ _ _ _ _ _ _ _ _ Hf). by eexists.
  - split.
    + intros [w' Hw]. apply ffmpeg_log_stub_defined in Hw as (out & h' & ->). by eexists.
    + intros [[out h'] Hf]. rewrite (ffmpeg_log_stub_run _ _ _ _ _ _ _ Hf). by eexists.
  - intros out h' Hf.
    exists (take 1023 out ++ NUL
            :: drop (S (length (take 1023 out))) (auto_array 1024 w)),
      (vsnprintf_result (length out)).
    split.
    { unfold sizeof. rewrite auto_array_length.
      apply vsnprintf_bounded; [done|]. rewrite auto_array_length. lia. }
    split; [|split].
    { intros Hfit. unfold vsnprintf_result.
      by rewrite (proj2 (Z.leb_le _ _) Hfit). }
    { intros Hbig. unfold vsnprintf_result.
      by rewrite (proj2 (Z.leb_gt _ _) Hbig). }
    split; [apply c_str_terminated|].
    split.
    { pose proof (strz_length (take 1023 out)) as Hs.
      rewrite length_take in Hs. lia. }
    split; [by apply alsa_log_stub_run|by apply ffmpeg_log_stub_run].
  - intros format2 arg2 w2 out out2 h1 h2 Hf1 Hf2 Heq.
    exists (strz (take 1023 out)).
    rewrite (alsa_log_stub_run _ _ _ _ _ _ _ _ _ Hf1),
      (alsa_log_stub_run _ _ _ _ _ _ _ _ _ Hf2),
      (ffmpeg_log_stub_run _ _ _ _ _ _ _ Hf1),
      (ffmpeg_log_stub_run _ _ _ _ _ _ _ Hf2), <- Heq.
    done.
Qed.

(** C7. The sink call an adapter makes is a function of its arguments alone.
    Two calls with the same arguments, from any two states (other heaps, other
    stale bytes on the stack, other earlier sink calls), make the same sink
    call and leave the same C string in their arrays; and a call repeated right
    after itself, on the state the first one left (its array now holding the
    first rendering), is defined and makes that same sink call again. *)
Theorem C7_identical_inputs_identical_calls (file : string) (line : Z)
    (function : string) (errno ptr level : Z) (format : string) (arg : va_list) :
  (∀ w1 w2 w1' w2' : World,
     alsa_log_stub file line function errno format arg w1 = Some w1' →
     alsa_log_stub file line function errno format arg w2 = Some w2' →
     ∃ c : SinkCall,
       sink_log w1' = sink_log w1 ++ [c] ∧ sink_log w2' = sink_log w2 ++ [c]
       ∧ c_str (stack w1') = Some (sink_message c)
       ∧ c_str (stack w2') = Some (sink_message c))
  ∧ (∀ w1 w2 w1' w2' : World,
     ffmpeg_log_stub ptr level format arg w1 = Some w1' →
     ffmpeg_log_stub ptr level format arg w2 = Some w2' →
     ∃ c : SinkCall,
       sink_log w1' = sink_log w1 ++ [c] ∧ sink_log w2' = sink_log w2 ++ [c]
       ∧ c_str (stack w1') = Some (sink_message c)
       ∧ c_str (stack w2') = Some (sink_message c))
  ∧ (∀ w w' : World,
     alsa_log_stub file line function errno format arg w = Some w' →
     ∃ (w'' : World) (c : SinkCall),
       alsa_log_stub file line function errno format arg w' = Some w''
       ∧ sink_log w'' = sink_log w ++ [c; c])
  ∧ (∀ w w' : World,
     ffmpeg_log_stub ptr level format arg w = Some w' →
     ∃ (w'' : World) (c : SinkCall),
       ffmpeg_log_stub ptr level format arg w' = Some w''
       ∧ sink_log w'' = sink_log w ++ [c; c]).
Proof.
  split; [|split; [|split]].
  - intros w1 w2 w1' w2' H1 H2.
    destruct (alsa_log_stub_defined _ _ _ _ _ _ _ _ H1) as (out1 & h1 & Hf1).
    destruct (alsa_log_stub_defined _ _ _ _ _ _ _ _ H2) as (out2 & h2 & Hf2).
    rewrite (alsa_log_stub_run _ _ _ _ _ _ _ _ _ Hf1) in H1.
    rewrite (alsa_log_stub_run _ _ _ _ _ _ _ _ _ Hf2) in H2.
    destruct (vsprintf_output _ _ _ _ _ _ _ _ Hf1 Hf2).
    injection H1 as <-. injection H2 as <-.
    eexists. cbn [sink_log stack]. rewrite !c_str_terminated. done.
  - intros w1 w2 w1' w2' H1 H2.
    destruct (ffmpeg_log_stub_defined _ _ _ _ _ _ H1) as (out1 & h1 & Hf1).
    destruct (ffmpeg_log_stub_defined _ _ _ _ _ _ H2) as (out2 & h2 & Hf2).
    rewrite (ffmpeg_log_stub_run _ _ _ _ _ _ _ Hf1) in H1.
    rewrite (ffmpeg_log_stub_run _ _ _ _ _ _ _ Hf2) in H2.
    destruct (vsprintf_output _ _ _ _ _ _ _ _ Hf1 Hf2).
    injection H1 as <-. injection H2 as <-.
    eexists. cbn [sink_log stack]. rewrite !c_str_terminated. done.
  - intros w w' H1.
    destruct (alsa_log_stub_defined _ _ _ _ _ _ _ _ H1) as (out & h' & Hf).
    rewrite (alsa_log_stub_run _ _ _ _ _ _ _ _ _ Hf) in H1. injection H1 as <-.
    destruct (vsprintf_again _ _ _ _ _ Hf) as [h'' Hf'].
    eexists _, _. split; [by apply alsa_log_stub_run|].
    cbn [sink_log]. by rewrite <- app_assoc.
  - intros w w' H1.
    destruct (ffmpeg_log_stub_defined _ _ _ _ _ _ H1) as (out & h' & Hf).
    rewrite (ffmpeg_log_stub_run _ _ _ _ _ _ _ Hf) in H1. injection H1 as <-.
    destruct (vsprintf_again _ _ _ _ _ Hf) as [h'' Hf'].
    eexists _, _. split; [by apply ffmpeg_log_stub_run|].
    cbn [sink_log]. by rewrite <- app_assoc.
Qed.

(** C10. When the rendering [out] is longer than 1023 bytes the adapter does
    what it does otherwise: it hands its array to its sink, once.  The array
    is the first 1023 characters of [out] and a terminator, the sink is the
    last step of the call, and its log grows by the one call carrying the cut
    message. *)
Theorem C10_truncated_message_still_forwarded (file : string) (line : Z)
    (function : string) (errno ptr level : Z) (format : string) (arg : va_list)
    (w : World) (out : list ascii) (h' : gmap Z Z) :
  vsprintf format arg (heap w) = Some (out, h') →
  1023 < length out →
  let buf := take 1023 out ++ [NUL] in
  let rendered := {| heap := h'; stack := buf; sink_log := sink_log w |} in
  c_str buf = Some (strz (take 1023 out))
  ∧ alsa_log_stub file line function errno format arg w
    = alsa_log_backend file line function errno buf rendered
  ∧ alsa_log_stub file line function errno format arg w
    = Some {| heap := h'; stack := buf;
              sink_log := sink_log w
                ++ [alsa_call file line function errno (strz (take 1023 out))] |}
  ∧ ffmpeg_log_stub ptr level format arg w
    = ffmpeg_log_backend (uintptr_t ptr) level buf rendered
  ∧ ffmpeg_log_stub ptr level format arg w
    = Some {| heap := h'; stack := buf;
              sink_log := sink_log w
                ++ [ffmpeg_call (uintptr_t ptr) level (strz (take 1023 out))] |}.
Proof.
  intros Hf Hlen buf rendered.
  assert (Hbuf : take 1023 out ++ NUL
                 :: drop (S (length (take 1023 out))) (auto_array 1024 w) = buf).
  { rewrite drop_ge; [done|]. rewrite length_take, auto_array_length. lia. }
  assert (Hc : c_str buf = Some (strz (take 1023 out)))
    by apply c_str_terminated.
  rewrite (alsa_log_stub_run _ _ _ _ _ _ _ _ _ Hf),
    (ffmpeg_log_stub_run _ _ _ _ _ _ _ Hf), Hbuf.
  unfold alsa_log_backend, ffmpeg_log_backend. rewrite Hc.
  by cbn [mbind option_bind].
Qed.

End Claims.

Lemma length_chars (s : string) :
  length (String.list_ascii_of_string s) = String.length s.
Proof. induction s as [|c s IH]; [done|]. cbn. by rewrite IH. Qed.

Lemma not_elem_of_take (c : ascii) (n : nat) (l : list ascii) :
  c ∉ l → c ∉ take n l.
Proof.
  intros Hnot Hin. apply Hnot. rewrite <- (take_drop n l).
  apply elem_of_app. by left.
Qed.

(** A template without directives renders as itself and stores nothing. *)
Lemma vsprintf_literal (literal : string) (arg : va_list) (h : gmap Z Z) :
  "%"%char ∉ String.list_ascii_of_string literal →
  NUL ∉ String.list_ascii_of_string literal →
  vsprintf literal arg h = Some (String.list_ascii_of_string literal, h).
Proof.
  intros Hpc Hnul. unfold vsprintf, vformat, c_printf.
  by rewrite render_literal.
Qed.

(** C2. When the unbounded rendering [out] has more than 1023 bytes, the array
    either adapter hands to its sink is the first 1023 bytes of [out] followed
    by the terminator, 1024 bytes in all, and the message read from it is those
    1023 bytes read as a C string.  In particular, with the formatter for the
    common directives, a template of 2000 characters none of which is [%]
    reaches either sink as its first 1023 characters. *)
Theorem C2_long_output_cut_at_1023 :
  (∀ (F : Formatter) (file : string) (line : Z) (function : string)
     (errno ptr level : Z) (format : string) (arg : va_list) (w : World)
     (out : list ascii) (h' : gmap Z Z),
     vsprintf format arg (heap w) = Some (out, h') →
     1023 < length out →
     alsa_log_stub file line function errno format arg w
     = Some {| heap := h'; stack := take 1023 out ++ [NUL];
               sink_log := sink_log w
                 ++ [alsa_call file line function errno (strz (take 1023 out))] |}
     ∧ ffmpeg_log_stub ptr level format arg w
       = Some {| heap := h'; stack := take 1023 out ++ [NUL];
                 sink_log := sink_log w
                   ++ [ffmpeg_call (uintptr_t ptr) level (strz (take 1023 out))] |}
     ∧ length (take 1023 out ++ [NUL]) = 1024)
  ∧ (∀ (file : string) (line : Z) (function : string) (errno ptr level : Z)
       (literal : string) (arg : va_list) (w : World),
     String.length literal = 2000 →
     "%"%char ∉ String.list_ascii_of_string literal →
     NUL ∉ String.list_ascii_of_string literal →
     let kept := take 1023 (String.list_ascii_of_string literal) in
     alsa_log_stub file line function errno literal arg w
     = Some {| heap := heap w; stack := kept ++ [NUL];
               sink_log := sink_log w
                 ++ [alsa_call file line function errno
                       (String.string_of_list_ascii kept)] |}
     ∧ ffmpeg_log_stub ptr level literal arg w
       = Some {| heap := heap w; stack := kept ++ [NUL];
                 sink_log := sink_log w
                   ++ [ffmpeg_call (uintptr_t ptr) level
                         (String.string_of_list_ascii kept)] |}
     ∧ length kept = 1023).
Proof.
  assert (Hgen : ∀ (F : Formatter) (w : World) (out : list ascii),
    1023 < length out →
    take 1023 out ++ NUL :: drop (S (length (take 1023 out))) (auto_array 1024 w)
    = take 1023 out ++ [NUL]).
  { intros F w out Hlen. rewrite drop_ge; [done|].
    rewrite length_take, auto_array_length. lia. }
  split.
  - intros F file line function errno ptr level format arg w out h' Hf Hlen.
    rewrite (alsa_log_stub_run _ _ _ _ _ _ _ _ _ Hf),
      (ffmpeg_log_stub_run _ _ _ _ _ _ _ Hf), (Hgen F) by done.
    split; [done|]. split; [done|].
    rewrite length_app, length_take. cbn [length]. lia.
  - intros file line function errno ptr level literal arg w Hlen Hpc Hnul kept.
    pose proof (vsprintf_literal literal arg (heap w) Hpc Hnul) as Hf.
    assert (Hl : 1023 < length (String.list_ascii_of_string literal))
      by (rewrite length_chars; lia).
    rewrite (alsa_log_stub_run _ _ _ _ _ _ _ _ _ Hf),
      (ffmpeg_log_stub_run _ _ _ _ _ _ _ Hf), (Hgen c_printf) by done.
    fold kept. rewrite (strz_no_NUL kept) by by apply not_elem_of_take.
    split; [done|]. split; [done|].
    unfold kept. rewrite length_take. lia.
Qed.

(** C8. With the formatter for the common directives, Variant A called with the
    template ["%d items"] and the argument 5 renders ["5 items"], and sink A
    receives the file, line, function and status code it was called with,
    together with that message. *)
Theorem C8_five_items (file : string) (line : Z) (function : string)
    (errno : Z) (w : World) :
  alsa_log_stub file line function errno "%d items" [VInt 5] w
  = Some {| heap := heap w;
            stack := String.list_ascii_of_string "5 items"
                     ++ NUL :: drop 8 (auto_array 1024 w);
            sink_log := sink_log w
                        ++ [alsa_call file line function errno "5 items"] |}.
Proof.
  by rewrite (alsa_log_stub_run file line function errno "%d items" [VInt 5] w
                (String.list_ascii_of_string "5 items") (heap w)).
Qed.



Lemma c_chars_string_of_list (l : list ascii) :
  NUL ∉ l → c_chars (String.string_of_list_ascii l) = l.
Proof.
  induction l as [|c l IH]; [done|].
  intros [Hc Hnot]%not_elem_of_cons. cbn [String.string_of_list_ascii c_chars].
  destruct (Ascii.eqb_spec c NUL) as [->|_]; [done|]. by rewrite IH.
Qed.

(** A lone [%s] renders the characters of its string argument. *)
Lemma vsprintf_string_argument (s : string) (h : gmap Z Z) :
  vsprintf "%s" [VStr s] h = Some (c_chars s, h).
Proof. reflexivity. Qed.

(** * The theorems at sample inputs *)

Lemma C1_witness :
  vsprintf "%s: %d%%" [VStr "load"; VInt 87] (heap sample_world)
  = Some (String.list_ascii_of_string "load: 87%", heap sample_world)
  ∧ length (String.list_ascii_of_string "load: 87%") ≤ 1023
  ∧ alsa_log_stub "pcm.c" 42 "snd_pcm_open" 2 "%s: %d%%"
      [VStr "load"; VInt 87] sample_world
    = Some {| heap := heap sample_world;
              stack := String.list_ascii_of_string "load: 87%"
                       ++ NUL :: drop 10 (auto_array 1024 sample_world);
              sink_log := sink_log sample_world
                ++ [alsa_call "pcm.c" 42 "snd_pcm_open" 2 "load: 87%"] |}.
Proof.
  assert (Hf : vsprintf "%s: %d%%" [VStr "load"; VInt 87] (heap sample_world)
               = Some (String.list_ascii_of_string "load: 87%", heap sample_world))
    by reflexivity.
  assert (Hlen : length (String.list_ascii_of_string "load: 87%") ≤ 1023)
    by (cbn; lia).
  split; [exact Hf|]. split; [exact Hlen|].
  exact (proj1 (C1_short_output_rendered_whole
                  "pcm.c" 42 "snd_pcm_open" 2 0 0 _ _ _ _ _ Hf Hlen)).
Defined.

Lemma C2_witness :
  (vsprintf "%d:%s" [VInt 7; VStr long_literal] (heap sample_world)
   = Some (String.list_ascii_of_string "7:" ++ replicate 2000 "a"%char,
           heap sample_world)
   ∧ 1023 < length (String.list_ascii_of_string "7:" ++ replicate 2000 "a"%char)
   ∧ alsa_log_stub "pcm.c" 42 "snd_pcm_open" 2 "%d:%s"
       [VInt 7; VStr long_literal] sample_world
     = Some {| heap := heap sample_world;
               stack := String.list_ascii_of_string "7:"
                        ++ replicate 1021 "a"%char ++ [NUL];
               sink_log := sink_log sample_world
                 ++ [alsa_call "pcm.c" 42 "snd_pcm_open" 2
                       (String.string_of_list_ascii
                          (String.list_ascii_of_string "7:"
                           ++ replicate 1021 "a"%char))] |})
  ∧ (String.length long_literal = 2000
     ∧ ("%"%char ∉ String.list_ascii_of_string long_literal)
     ∧ (NUL ∉ String.list_ascii_of_string long_literal)
     ∧ ffmpeg_log_stub 4096 32 long_literal [] sample_world
       = Some {| heap := heap sample_world;
                 stack := replicate 1023 "a"%char ++ [NUL];
                 sink_log := sink_log sample_world
                   ++ [ffmpeg_call 4096 32
                         (String.string_of_list_ascii (replicate 1023 "a"%char))] |}).
Proof.
  assert (Hf : vsprintf "%d:%s" [VInt 7; VStr long_literal] (heap sample_world)
               = Some (String.list_ascii_of_string "7:" ++ replicate 2000 "a"%char,
                       heap sample_world))
    by (vm_compute; reflexivity).
  assert (Hlen : 1023 < length (String.list_ascii_of_string "7:"
                                ++ replicate 2000 "a"%char))
    by (rewrite length_app, length_replicate; cbn; lia).
  assert (H2000 : String.length long_literal = 2000) by (vm_compute; reflexivity).
  assert (Hpc : "%"%char ∉ String.list_ascii_of_string long_literal)
    by compute_done.
  assert (Hnul : NUL ∉ String.list_ascii_of_string long_literal)
    by compute_done.
  split.
  - split; [exact Hf|]. split; [exact Hlen|].
    pose proof (proj1 (proj1 C2_long_output_cut_at_1023 c_printf
                  "pcm.c" 42%Z "snd_pcm_open" 2%Z 0%Z 0%Z _ _ _ _ _ Hf Hlen)) as H.
    rewrite H. vm_compute. reflexivity.
  - split; [exact H2000|]. split; [exact Hpc|]. split; [exact Hnul|].
    pose proof (proj1 (proj2 (proj2 C2_long_output_cut_at_1023
                  "pcm.c" 42%Z "snd_pcm_open" 2%Z 4096%Z 32%Z long_literal []
                  sample_world H2000 Hpc Hnul))) as H.
    rewrite H. vm_compute. reflexivity.
Defined.

Lemma C3_witness :
  vsprintf "ab%ccd" [VInt 0] (heap sample_world)
  = Some (["a"; "b"; NUL; "c"; "d"]%char, heap sample_world)
  ∧ ∃ buf : list ascii,
      ffmpeg_log_stub 4096 32 "ab%ccd" [VInt 0] sample_world
      = Some {| heap := heap sample_world; stack := buf;
                sink_log := sink_log sample_world ++ [ffmpeg_call 4096 32 "ab"] |}
      ∧ length buf = 1024
      ∧ buf !! 5 = Some NUL
      ∧ c_str buf = Some "ab"%string.
Proof.
  assert (Hf : vsprintf "ab%ccd" [VInt 0] (heap sample_world)
               = Some (["a"; "b"; NUL; "c"; "d"]%char, heap sample_world))
    by reflexivity.
  split; [exact Hf|].
  destruct (C3_rendered_message_bounded_and_terminated
              "pcm.c" 42 "snd_pcm_open" 2 4096 32 _ _ _ _ _ Hf)
    as (buf & _ & Hb & Hlen & _ & Hnul & Hc & _).
  exists buf. split; [exact Hb|]. split; [exact Hlen|].
  split; [exact Hnul|exact Hc].
Defined.

Lemma C4_witness :
  vsprintf "%i of %u" [VInt (-1); VInt (-1)] (heap sample_world)
  = Some (String.list_ascii_of_string "-1 of 4294967295", heap sample_world)
  ∧ (∃ (wa : World) (message : string),
       alsa_log_stub "pcm.c" 42 "snd_pcm_open" 2 "%i of %u"
         [VInt (-1); VInt (-1)] sample_world = Some wa
       ∧ sink_log wa
         = sink_log sample_world
           ++ [alsa_call "pcm.c" 42 "snd_pcm_open" 2 message])
  ∧ (∃ (wb : World) (message : string),
       ffmpeg_log_stub 4096 32 "%i of %u" [VInt (-1); VInt (-1)] sample_world
       = Some wb
       ∧ sink_log wb = sink_log sample_world ++ [ffmpeg_call 4096 32 message]).
Proof.
  assert (Hf : vsprintf "%i of %u" [VInt (-1); VInt (-1)] (heap sample_world)
               = Some (String.list_ascii_of_string "-1 of 4294967295",
                       heap sample_world))
    by reflexivity.
  split; [exact Hf|].
  exact (C4_sink_called_once_with_metadata
           "pcm.c" 42 "snd_pcm_open" 2 4096 32 _ _ _ _ _ Hf).
Defined.

Lemma C5_witness :
  heap sample_world !! 4096%Z = None
  ∧ heap sample_world !! NULL = None
  ∧ vsprintf "%s" [VStr "seek"] (heap sample_world)
    = Some (String.list_ascii_of_string "seek", heap sample_world)
  ∧ ∃ (buf : list ascii) (message : string),
      ffmpeg_log_stub 4096 32 "%s" [VStr "seek"] sample_world
      = Some {| heap := heap sample_world; stack := buf;
                sink_log := sink_log sample_world
                            ++ [ffmpeg_call 4096 32 message] |}
      ∧ ffmpeg_log_stub NULL 32 "%s" [VStr "seek"] sample_world
        = Some {| heap := heap sample_world; stack := buf;
                  sink_log := sink_log sample_world
                              ++ [ffmpeg_call 0 32 message] |}.
Proof.
  assert (Hf : vsprintf "%s" [VStr "seek"] (heap sample_world)
               = Some (String.list_ascii_of_string "seek", heap sample_world))
    by reflexivity.
  split; [reflexivity|]. split; [reflexivity|]. split; [exact Hf|].
  exact (proj2 (C5_handle_forwarded_as_number 4096 32 _ _ _ _ _ Hf)).
Defined.

Lemma C6_witness :
  (vsprintf long_literal [] (heap sample_world)
   = Some (replicate 2000 "a"%char, heap sample_world)
   ∧ ∃ buf : list ascii,
       vsnprintf (auto_array 1024 sample_world)
         (sizeof (auto_array 1024 sample_world)) long_literal []
         (heap sample_world)
       = Some (buf, 2000%Z, heap sample_world)
       ∧ alsa_log_stub "pcm.c" 42 "snd_pcm_open" 2 long_literal [] sample_world
         = Some {| heap := heap sample_world; stack := buf;
                   sink_log := sink_log sample_world
                     ++ [alsa_call "pcm.c" 42 "snd_pcm_open" 2
                           (String.string_of_list_ascii
                              (replicate 1023 "a"%char))] |})
  ∧ (vsprintf "%s" [VStr overlong] (heap sample_world)
     = Some (replicate (Z.to_nat (2 ^ 31)) "a"%char, heap sample_world)
     ∧ (INT_MAX < Z.of_nat (length (replicate (Z.to_nat (2 ^ 31)) "a"%char)))%Z
     ∧ ∃ buf : list ascii,
         vsnprintf (auto_array 1024 sample_world)
           (sizeof (auto_array 1024 sample_world)) "%s" [VStr overlong]
           (heap sample_world)
         = Some (buf, (-1)%Z, heap sample_world)
         ∧ ffmpeg_log_stub 4096 32 "%s" [VStr overlong] sample_world
           = Some {| heap := heap sample_world; stack := buf;
                     sink_log := sink_log sample_world
                       ++ [ffmpeg_call (uintptr_t 4096) 32
                             (strz (take 1023
                                      (replicate (Z.to_nat (2 ^ 31)) "a"%char)))] |}).
Proof.
  split.
  - assert (Hf : vsprintf long_literal [] (heap sample_world)
                 = Some (replicate 2000 "a"%char, heap sample_world))
      by (vm_compute; reflexivity).
    split; [exact Hf|].
    destruct (proj1 (proj2 (proj2 (C6_no_failure_reported
                "pcm.c" 42 "snd_pcm_open" 2 4096 32 long_literal []
                sample_world))) _ _ Hf)
      as (buf & count & Hv & Hfit & _ & _ & _ & Ha & _).
    rewrite Hfit in Hv by (vm_compute; discriminate).
    exists buf. split; [exact Hv|exact Ha].
  - assert (Hf : vsprintf "%s" [VStr overlong] (heap sample_world)
                 = Some (replicate (Z.to_nat (2 ^ 31)) "a"%char, heap sample_world)).
    { rewrite vsprintf_string_argument. unfold overlong.
      rewrite c_chars_string_of_list; [reflexivity|].
      intros Hin%elem_of_replicate_inv. unfold NUL in Hin. discriminate. }
    assert (Hbig : (INT_MAX
                    < Z.of_nat (length (replicate (Z.to_nat (2 ^ 31)) "a"%char)))%Z).
    { rewrite length_replicate, Z2Nat.id; [reflexivity|].
      vm_compute. discriminate. }
    split; [exact Hf|]. split; [exact Hbig|].
    destruct (proj1 (proj2 (proj2 (C6_no_failure_reported
                "pcm.c" 42 "snd_pcm_open" 2 4096 32 "%s" [VStr overlong]
                sample_world))) _ _ Hf)
      as (buf & count & Hv & _ & Hneg & _ & _ & _ & Hb).
    rewrite (Hneg Hbig) in Hv.
    exists buf. split; [exact Hv|exact Hb].
Defined.

Lemma C7_witness :
  let after :=
    {| heap := {[ 8%Z := 7%Z ]};
       stack := String.list_ascii_of_string "5 items"
                ++ NUL :: drop 8 (auto_array 1024 sample_world);
       sink_log := sink_log sample_world
                   ++ [alsa_call "pcm.c" 42 "snd_pcm_open" 2 "5 items"] |} in
  alsa_log_stub "pcm.c" 42 "snd_pcm_open" 2 "%d items%n" [VInt 5; VPtr 8]
    sample_world = Some after
  ∧ ∃ (w'' : World) (c : SinkCall),
      alsa_log_stub "pcm.c" 42 "snd_pcm_open" 2 "%d items%n" [VInt 5; VPtr 8]
        after = Some w''
      ∧ sink_log w'' = sink_log sample_world ++ [c; c].
Proof.
  intros after.
  assert (H : alsa_log_stub "pcm.c" 42 "snd_pcm_open" 2 "%d items%n"
                [VInt 5; VPtr 8] sample_world = Some after)
    by (vm_compute; reflexivity).
  split; [exact H|].
  exact (proj1 (proj2 (proj2 (C7_identical_inputs_identical_calls
                                "pcm.c" 42 "snd_pcm_open" 2 0 0
                                "%d items%n" [VInt 5; VPtr 8])))
           sample_world after H).
Defined.


Lemma C10_witness :
  let buf := replicate 1023 "a"%char ++ [NUL] in
  vsprintf long_literal [] (heap sample_world)
  = Some (replicate 2000 "a"%char, heap sample_world)
  ∧ 1023 < length (replicate 2000 "a"%char)
  ∧ ffmpeg_log_stub 4096 32 long_literal [] sample_world
    = Some {| heap := heap sample_world; stack := buf;
              sink_log := sink_log sample_world
                ++ [ffmpeg_call 4096 32
                      (String.string_of_list_ascii (replicate 1023 "a"%char))] |}.
Proof.
  intros buf.
  assert (Hf : vsprintf long_literal [] (heap sample_world)
               = Some (replicate 2000 "a"%char, heap sample_world))
    by (vm_compute; reflexivity).
  assert (Hlen : 1023 < length (replicate 2000 "a"%char))
    by (rewrite length_replicate; lia).
  split; [exact Hf|]. split; [exact Hlen|].
  pose proof (proj2 (proj2 (proj2 (proj2
    (C10_truncated_message_still_forwarded
       "pcm.c" 42%Z "snd_pcm_open" 2%Z 4096%Z 32%Z _ _ _ _ _ Hf Hlen))))) as H.
  rewrite H. vm_compute. reflexivity.
Defined.

(** * Further properties of the adapters *)

Lemma strz_prefix (l : list ascii) :
  String.list_ascii_of_string (strz l) `prefix_of` l.
Proof.
  induction l as [|c l IH]; [done|].
  cbn [strz]. destruct (Ascii.eqb c NUL).
  - apply prefix_nil.
  - cbn [String.list_ascii_of_string]. by apply prefix_cons.
Qed.

Lemma strz_holds_no_NUL (l : list ascii) :
  NUL ∉ String.list_ascii_of_string (strz l).
Proof.
  induction l as [|c l IH]; cbn [strz]; [by apply not_elem_of_nil|].
  destruct (Ascii.eqb_spec c NUL) as [->|Hc]; [by apply not_elem_of_nil|].
  cbn [String.list_ascii_of_string]. apply not_elem_of_cons. split; [congruence|done].
Qed.

Lemma length_string_of_list_ascii (l : list ascii) :
  String.length (String.string_of_list_ascii l) = length l.
Proof. induction l as [|c l IH]; [done|]. cbn. by rewrite IH. Qed.

Lemma strz_take_before_NUL (pre post : list ascii) (n : nat) :
  NUL ∉ pre →
  strz (take n (pre ++ NUL :: post)) = String.string_of_list_ascii (take n pre).
Proof.
  revert n. induction pre as [|c pre IH]; intros n Hnot.
  - destruct n; [done|]. cbn [app take strz]. by rewrite Ascii.eqb_refl.
  - apply not_elem_of_cons in Hnot as [Hc Hnot].
    destruct n; [done|]. cbn [app take strz String.string_of_list_ascii].
    destruct (Ascii.eqb_spec c NUL) as [->|_]; [done|].
    by rewrite IH.
Qed.

Section Extras.
Context `{F : Formatter}.

(** X1. Truncation is silent.  The count [vsnprintf] returns is dropped, so two
    renderings that agree on their first 1023 bytes reach the sink as the same
    call, whatever follows in either of them and from whatever states. *)
Theorem X1_truncation_is_silent (file : string) (line : Z) (function : string)
    (errno ptr level : Z) (format1 format2 : string) (arg1 arg2 : va_list)
    (w1 w2 : World) (out1 out2 : list ascii) (h1 h2 : gmap Z Z) :
  vsprintf format1 arg1 (heap w1) = Some (out1, h1) →
  vsprintf format2 arg2 (heap w2) = Some (out2, h2) →
  take 1023 out1 = take 1023 out2 →
  ∃ message : string,
    sink_log <$> alsa_log_stub file line function errno format1 arg1 w1
    = Some (sink_log w1 ++ [alsa_call file line function errno message])
    ∧ sink_log <$> alsa_log_stub file line function errno format2 arg2 w2
      = Some (sink_log w2 ++ [alsa_call file line function errno message])
    ∧ sink_log <$> ffmpeg_log_stub ptr level format1 arg1 w1
      = Some (sink_log w1 ++ [ffmpeg_call ptr level message])
    ∧ sink_log <$> ffmpeg_log_stub ptr level format2 arg2 w2
      = Some (sink_log w2 ++ [ffmpeg_call ptr level message]).
Proof.
  intros Hf1 Hf2 Heq. exists (strz (take 1023 out1)).
  rewrite (alsa_log_stub_run _ _ _ _ _ _ _ _ _ Hf1),
    (alsa_log_stub_run _ _ _ _ _ _ _ _ _ Hf2),
    (ffmpeg_log_stub_run _ _ _ _ _ _ _ Hf1),
    (ffmpeg_log_stub_run _ _ _ _ _ _ _ Hf2), <- Heq.
  done.
Qed.

(** X2. The sink is never shown a byte that was not rendered: the message it
    receives holds no NUL and is a prefix of the unbounded rendering, whatever
    stale bytes the fresh array started with. *)
Theorem X2_message_is_prefix_of_rendering (file : string) (line : Z)
    (function : string) (errno ptr level : Z) (format : string) (arg : va_list)
    (w : World) (out : list ascii) (h' : gmap Z Z) :
  vsprintf format arg (heap w) = Some (out, h') →
  ∃ message : string,
    sink_log <$> alsa_log_stub file line function errno format arg w
    = Some (sink_log w ++ [alsa_call file line function errno message])
    ∧ sink_log <$> ffmpeg_log_stub ptr level format arg w
      = Some (sink_log w ++ [ffmpeg_call ptr level message])
    ∧ String.list_ascii_of_string message `prefix_of` out
    ∧ NUL ∉ String.list_ascii_of_string message.
Proof.
  intros Hf. exists (strz (take 1023 out)).
  rewrite (alsa_log_stub_run _ _ _ _ _ _ _ _ _ Hf),
    (ffmpeg_log_stub_run _ _ _ _ _ _ _ Hf).
  split; [done|]. split; [done|]. split; [|apply strz_holds_no_NUL].
  etrans; [apply strz_prefix|apply prefix_take].
Qed.

(** X3. The capacity is 1023 characters, not 1024.  For a rendering without
    NUL the message has [min (length out) 1023] characters, and it is the whole
    rendering exactly when the rendering has at most 1023 bytes. *)
Theorem X3_capacity_is_1023_characters (file : string) (line : Z)
    (function : string) (errno ptr level : Z) (format : string) (arg : va_list)
    (w : World) (out : list ascii) (h' : gmap Z Z) :
  vsprintf format arg (heap w) = Some (out, h') →
  NUL ∉ out →
  ∃ message : string,
    sink_log <$> alsa_log_stub file line function errno format arg w
    = Some (sink_log w ++ [alsa_call file line function errno message])
    ∧ sink_log <$> ffmpeg_log_stub ptr level format arg w
      = Some (sink_log w ++ [ffmpeg_call ptr level message])
    ∧ String.length message = length out `min` 1023
    ∧ (message = String.string_of_list_ascii out ↔ length out ≤ 1023).
Proof.
  intros Hf Hnul. exists (strz (take 1023 out)).
  rewrite (alsa_log_stub_run _ _ _ _ _ _ _ _ _ Hf),
    (ffmpeg_log_stub_run _ _ _ _ _ _ _ Hf).
  split; [done|]. split; [done|].
  rewrite (strz_no_NUL (take 1023 out)) by by apply not_elem_of_take.
  assert (Hlen : String.length (String.string_of_list_ascii (take 1023 out))
                 = length out `min` 1023)
    by (rewrite length_string_of_list_ascii, length_take; lia).
  split; [done|]. split.
  - intros Heq. rewrite Heq, length_string_of_list_ascii in Hlen. lia.
  - intros Hle. by rewrite take_ge.
Qed.

(** X4. The array is handed over as a [const char*], so a NUL inside the
    rendering ends the message: when the rendering is [pre], a NUL and [post],
    the sink receives the characters of [pre] (its first 1023) and nothing of
    [post], even where [post] was written to the array. *)
Theorem X4_embedded_NUL_ends_message (file : string) (line : Z)
    (function : string) (errno ptr level : Z) (format : string) (arg : va_list)
    (w : World) (pre post : list ascii) (h' : gmap Z Z) :
  vsprintf format arg (heap w) = Some (pre ++ NUL :: post, h') →
  NUL ∉ pre →
  sink_log <$> alsa_log_stub file line function errno format arg w
  = Some (sink_log w
          ++ [alsa_call file line function errno
                (String.string_of_list_ascii (take 1023 pre))])
  ∧ sink_log <$> ffmpeg_log_stub ptr level format arg w
    = Some (sink_log w
            ++ [ffmpeg_call ptr level
                  (String.string_of_list_ascii (take 1023 pre))])
  ∧ ∃ buf : list ascii,
      stack <$> alsa_log_stub file line function errno format arg w = Some buf
      ∧ stack <$> ffmpeg_log_stub ptr level format arg w = Some buf
      ∧ take 1023 (pre ++ NUL :: post) `prefix_of` buf.
Proof.
  intros Hf Hnul.
  rewrite (alsa_log_stub_run _ _ _ _ _ _ _ _ _ Hf),
    (ffmpeg_log_stub_run _ _ _ _ _ _ _ Hf).
  cbn [fmap option_fmap option_map sink_log stack].
  rewrite strz_take_before_NUL by done.
  split; [done|]. split; [done|].
  eexists. split; [done|]. split; [done|]. by apply prefix_app_r.
Qed.

(** X5. Calls compose.  A call of one adapter followed by a call of the other
    is defined when each formatting is defined on the heap it meets, ends on
    the heap the second formatting leaves, and extends the sink log by the two
    calls in the order made; the second message is that of its own rendering,
    whatever the first call left behind in the array. *)
Theorem X5_calls_compose (file : string) (line : Z) (function : string)
    (errno ptr level : Z) (format1 format2 : string) (arg1 arg2 : va_list)
    (w : World) (out1 out2 : list ascii) (h1 h2 : gmap Z Z) :
  vsprintf format1 arg1 (heap w) = Some (out1, h1) →
  vsprintf format2 arg2 h1 = Some (out2, h2) →
  (∃ w2 : World,
     alsa_log_stub file line function errno format1 arg1 w
       ≫= ffmpeg_log_stub ptr level format2 arg2 = Some w2
     ∧ heap w2 = h2
     ∧ sink_log w2
       = sink_log w
         ++ [alsa_call file line function errno (strz (take 1023 out1));
             ffmpeg_call ptr level (strz (take 1023 out2))])
  ∧ (∃ w2 : World,
     ffmpeg_log_stub ptr level format1 arg1 w
       ≫= alsa_log_stub file line function errno format2 arg2 = Some w2
     ∧ heap w2 = h2
     ∧ sink_log w2
       = sink_log w
         ++ [ffmpeg_call ptr level (strz (take 1023 out1));
             alsa_call file line function errno (strz (take 1023 out2))]).
Proof.
  intros Hf1 Hf2. split.
  - rewrite (alsa_log_stub_run _ _ _ _ _ _ _ _ _ Hf1). cbn [mbind option_bind].
    eexists. split; [by apply ffmpeg_log_stub_run|].
    cbn [heap sink_log]. by rewrite <- app_assoc.
  - rewrite (ffmpeg_log_stub_run _ _ _ _ _ _ _ Hf1). cbn [mbind option_bind].
    eexists. split; [by apply alsa_log_stub_run|].
    cbn [heap sink_log]. by rewrite <- app_assoc.
Qed.

End Extras.

(** * The further properties at sample inputs *)

Lemma X1_witness :
  vsprintf long_literal [] (heap sample_world)
  = Some (replicate 2000 "a"%char, heap sample_world)
  ∧ vsprintf "%s%s" [VStr long_literal; VStr "tail"] (heap sample_world)
    = Some (replicate 2000 "a"%char ++ String.list_ascii_of_string "tail",
            heap sample_world)
  ∧ take 1023 (replicate 2000 "a"%char)
    = take 1023 (replicate 2000 "a"%char ++ String.list_ascii_of_string "tail")
  ∧ ∃ message : string,
      sink_log <$> alsa_log_stub "pcm.c" 42 "snd_pcm_open" 2 long_literal []
                     sample_world
      = Some (sink_log sample_world
              ++ [alsa_call "pcm.c" 42 "snd_pcm_open" 2 message])
      ∧ sink_log <$> alsa_log_stub "pcm.c" 42 "snd_pcm_open" 2 "%s%s"
                       [VStr long_literal; VStr "tail"] sample_world
        = Some (sink_log sample_world
                ++ [alsa_call "pcm.c" 42 "snd_pcm_open" 2 message]).
Proof.
  assert (Hf1 : vsprintf long_literal [] (heap sample_world)
                = Some (replicate 2000 "a"%char, heap sample_world))
    by (vm_compute; reflexivity).
  assert (Hf2 : vsprintf "%s%s" [VStr long_literal; VStr "tail"]
                  (heap sample_world)
                = Some (replicate 2000 "a"%char
                        ++ String.list_ascii_of_string "tail", heap sample_world))
    by (vm_compute; reflexivity).
  assert (Heq : take 1023 (replicate 2000 "a"%char)
                = take 1023 (replicate 2000 "a"%char
                             ++ String.list_ascii_of_string "tail"))
    by (vm_compute; reflexivity).
  split; [exact Hf1|]. split; [exact Hf2|]. split; [exact Heq|].
  destruct (X1_truncation_is_silent "pcm.c" 42 "snd_pcm_open" 2 4096 32
              _ _ _ _ _ _ _ _ _ _ Hf1 Hf2 Heq) as (message & Ha1 & Ha2 & _).
  exists message. split; [exact Ha1|exact Ha2].
Defined.

Lemma X2_witness :
  vsprintf "%s: %d%%" [VStr "load"; VInt 87] (heap sample_world)
  = Some (String.list_ascii_of_string "load: 87%", heap sample_world)
  ∧ ∃ message : string,
      sink_log <$> alsa_log_stub "pcm.c" 42 "snd_pcm_open" 2 "%s: %d%%"
                     [VStr "load"; VInt 87] sample_world
      = Some (sink_log sample_world
              ++ [alsa_call "pcm.c" 42 "snd_pcm_open" 2 message])
      ∧ sink_log <$> ffmpeg_log_stub 4096 32 "%s: %d%%"
                       [VStr "load"; VInt 87] sample_world
        = Some (sink_log sample_world ++ [ffmpeg_call 4096 32 message])
      ∧ String.list_ascii_of_string message
        `prefix_of` String.list_ascii_of_string "load: 87%"
      ∧ NUL ∉ String.list_ascii_of_string message.
Proof.
  assert (Hf : vsprintf "%s: %d%%" [VStr "load"; VInt 87] (heap sample_world)
               = Some (String.list_ascii_of_string "load: 87%", heap sample_world))
    by reflexivity.
  split; [exact Hf|].
  exact (X2_message_is_prefix_of_rendering
           "pcm.c" 42 "snd_pcm_open" 2 4096 32 _ _ _ _ _ Hf).
Defined.

Lemma X3_witness :
  vsprintf long_literal [] (heap sample_world)
  = Some (replicate 2000 "a"%char, heap sample_world)
  ∧ (NUL ∉ replicate 2000 "a"%char)
  ∧ ∃ message : string,
      sink_log <$> alsa_log_stub "pcm.c" 42 "snd_pcm_open" 2 long_literal []
                     sample_world
      = Some (sink_log sample_world
              ++ [alsa_call "pcm.c" 42 "snd_pcm_open" 2 message])
      ∧ sink_log <$> ffmpeg_log_stub 4096 32 long_literal [] sample_world
        = Some (sink_log sample_world ++ [ffmpeg_call 4096 32 message])
      ∧ String.length message = length (replicate 2000 "a"%char) `min` 1023
      ∧ (message = String.string_of_list_ascii (replicate 2000 "a"%char)
         ↔ length (replicate 2000 "a"%char) ≤ 1023).
Proof.
  assert (Hf : vsprintf long_literal [] (heap sample_world)
               = Some (replicate 2000 "a"%char, heap sample_world))
    by (vm_compute; reflexivity).
  assert (Hnul : NUL ∉ replicate 2000 "a"%char) by compute_done.
  split; [exact Hf|]. split; [exact Hnul|].
  exact (X3_capacity_is_1023_characters
           "pcm.c" 42 "snd_pcm_open" 2 4096 32 _ _ _ _ _ Hf Hnul).
Defined.

Lemma X4_witness :
  vsprintf "ab%ccd" [VInt 0] (heap sample_world)
  = Some (["a"; "b"]%char ++ NUL :: ["c"; "d"]%char, heap sample_world)
  ∧ (NUL ∉ ["a"; "b"]%char)
  ∧ sink_log <$> alsa_log_stub "pcm.c" 42 "snd_pcm_open" 2 "ab%ccd" [VInt 0]
                   sample_world
    = Some (sink_log sample_world
            ++ [alsa_call "pcm.c" 42 "snd_pcm_open" 2 "ab"])
  ∧ sink_log <$> ffmpeg_log_stub 4096 32 "ab%ccd" [VInt 0] sample_world
    = Some (sink_log sample_world ++ [ffmpeg_call 4096 32 "ab"]).
Proof.
  assert (Hf : vsprintf "ab%ccd" [VInt 0] (heap sample_world)
               = Some (["a"; "b"]%char ++ NUL :: ["c"; "d"]%char,
                       heap sample_world))
    by reflexivity.
  assert (Hnul : NUL ∉ ["a"; "b"]%char) by compute_done.
  split; [exact Hf|]. split; [exact Hnul|].
  destruct (X4_embedded_NUL_ends_message
              "pcm.c" 42 "snd_pcm_open" 2 4096 32 _ _ _ _ _ _ Hf Hnul)
    as (Ha & Hb & _).
  split; [exact Ha|exact Hb].
Defined.

Lemma X5_witness :
  vsprintf "%d items%n" [VInt 5; VPtr 8] (heap sample_world)
  = Some (String.list_ascii_of_string "5 items", {[ 8%Z := 7%Z ]})
  ∧ vsprintf "%s" [VStr "seek"] {[ 8%Z := 7%Z ]}
    = Some (String.list_ascii_of_string "seek", {[ 8%Z := 7%Z ]})
  ∧ ∃ w2 : World,
      alsa_log_stub "pcm.c" 42 "snd_pcm_open" 2 "%d items%n" [VInt 5; VPtr 8]
        sample_world
        ≫= ffmpeg_log_stub 4096 32 "%s" [VStr "seek"] = Some w2
      ∧ heap w2 = {[ 8%Z := 7%Z ]}
      ∧ sink_log w2
        = sink_log sample_world
          ++ [alsa_call "pcm.c" 42 "snd_pcm_open" 2 "5 items";
              ffmpeg_call 4096 32 "seek"].
Proof.
  assert (Hf1 : vsprintf "%d items%n" [VInt 5; VPtr 8] (heap sample_world)
                = Some (String.list_ascii_of_string "5 items", {[ 8%Z := 7%Z ]}))
    by (vm_compute; reflexivity).
  assert (Hf2 : vsprintf "%s" [VStr "seek"] {[ 8%Z := 7%Z ]}
                = Some (String.list_ascii_of_string "seek", {[ 8%Z := 7%Z ]}))
    by (vm_compute; reflexivity).
  split; [exact Hf1|]. split; [exact Hf2|].
  exact (proj1 (X5_calls_compose "pcm.c" 42 "snd_pcm_open" 2 4096 32
                  _ _ _ _ _ _ _ _ _ Hf1 Hf2)).
Defined.
